(** * yellowbrick.base: the multi-model fan-out mixin

    A shallow embedding of [MultiModelMixin] from [yellowbrick/base.py]
    (constructor, [generate_subplots], and the [predict] generator), with the
    properties of its specification stated and proved over it, and of the
    interface stubs of the visualization base classes of the same file.

    Python values are a small inductive type, an instance is its attribute
    dictionary (a [gmap] from attribute names to values), exceptions are an
    error monad, and everything outside the class (the helpers of
    [yellowbrick.utils], scikit-learn's [cross_val_predict], matplotlib's
    [pyplot.subplots]) is a parameter of the development. *)

From Stdlib Require Import ZArith String List Lia.
From stdpp Require Import base option list gmap strings.

Set Warnings "-register-all".

Local Open Scope string_scope.
Local Open Scope Z_scope.

(** ** Python values and exceptions *)

(** The values the mixin handles.  [PyObj oid cls attrs] is an instance with
    identity [oid], of the class named [cls], exposing the attributes
    [attrs]. *)
Inductive pyval : Type :=
| PyNone
| PyInt (n : Z)
| PyStr (s : string)
| PyList (items : list pyval)
| PyTuple (items : list pyval)
| PyObj (oid : N) (cls : string) (attrs : list string).

(** A raised exception: its class and its message. *)
Record pyexc : Type := Exc { exc_class : string; exc_msg : string }.

Inductive result (A : Type) : Type :=
| Ok (a : A)
| Raise (e : pyexc).
Arguments Ok {A} a.
Arguments Raise {A} e.

Definition result_bind {A B} (r : result A) (k : A -> result B) : result B :=
  match r with
  | Ok a => k a
  | Raise e => Raise e
  end.

(** [type(v).__name__] *)
Definition type_name (v : pyval) : string :=
  match v with
  | PyNone => "NoneType"
  | PyInt _ => "int"
  | PyStr _ => "str"
  | PyList _ => "list"
  | PyTuple _ => "tuple"
  | PyObj _ cls _ => cls
  end.

Fixpoint chars (s : string) : list pyval :=
  match s with
  | EmptyString => []
  | String c s' => PyStr (String c EmptyString) :: chars s'
  end.

(** [iter(v)] run to the end: the items a [for] loop or [map] visits.
    Values that are not iterable raise [TypeError].  The iterables among the
    values are the sequences (list, tuple, str), which can be visited again
    and again; an iterator that can be visited only once is not among
    them. *)
Definition py_iter (v : pyval) : result (list pyval) :=
  match v with
  | PyList items | PyTuple items => Ok items
  | PyStr s => Ok (chars s)
  | _ => Raise (Exc "TypeError" (type_name v ++ " object is not iterable"))
  end.

(** [len(v)] *)
Definition py_len (v : pyval) : result Z :=
  match v with
  | PyList items | PyTuple items => Ok (Z.of_nat (length items))
  | PyStr s => Ok (Z.of_nat (String.length s))
  | _ => Raise (Exc "TypeError" ("object of type " ++ type_name v ++ " has no len()"))
  end.

(** [list(map(f, v))] over the items of an iterable: [f] is applied to the
    items in order and the first exception it raises ends the traversal. *)
Fixpoint map_list (f : pyval -> result pyval) (items : list pyval)
  : result (list pyval) :=
  match items with
  | [] => Ok []
  | x :: rest =>
      result_bind (f x) (fun n =>
      result_bind (map_list f rest) (fun ns => Ok (n :: ns)))
  end.

(** The tuple assignment [a, b = v]. *)
Definition py_unpack2 (v : pyval) : result (pyval * pyval) :=
  result_bind (py_iter v) (fun items =>
    match items with
    | [a; b] => Ok (a, b)
    | _ => Raise (Exc "ValueError" "wrong number of values to unpack")
    end).

(** [d.pop(key, default)] on a dictionary with string keys: the value and the
    dictionary left behind.  [default] is an already evaluated argument. *)
Definition dict_pop (d : gmap string pyval) (key : string) (default : pyval)
  : pyval * gmap string pyval :=
  match d !! key with
  | Some v => (v, delete key d)
  | None => (default, d)
  end.

(** ** Collaborators *)

(** [hasattr(v, name)] for the method names the capability check probes;
    built-in values expose neither [fit] nor [predict]. *)
Definition py_hasattr (v : pyval) (name : string) : bool :=
  match v with
  | PyObj _ _ attrs => existsb (String.eqb name) attrs
  | _ => false
  end.

(** Modelled from the spec: [yellowbrick.utils.isestimator], which is not part
    of the sources at hand; the capability check "exposes both fit and
    predict". *)
Definition isestimator_spec (model : pyval) : bool :=
  py_hasattr model "fit" && py_hasattr model "predict".

(** Modelled from the spec: [yellowbrick.utils.get_model_name], which is not
    part of the sources at hand; "each model's most-specific class
    identifier". *)
Definition get_model_name_spec (model : pyval) : result pyval :=
  Ok (PyStr (type_name model)).


(** An instrumented outside world: every call that reaches a collaborator is
    logged, and fresh object identities are drawn from a counter. *)
Inductive event : Type :=
| SubplotsCall (nrows : Z) (sharex sharey : bool)
| CvpCall (model X y : pyval) (cv : Z).

Record lab : Type := Lab { calls : list event; next_oid : N }.

Definition log (ev : event) (w : lab) : lab :=
  {| calls := calls w ++ [ev]; next_oid := next_oid w |}.

(** A cross-validation routine whose answer is a function of its arguments
    alone: it fails on a model without [fit] and [predict] and otherwise
    answers with a value built from the model, the data and the fold count. *)
Definition cvp_lab (model X y : pyval) (cv : Z) (w : lab) : result pyval * lab :=
  let w' := log (CvpCall model X y cv) w in
  if isestimator_spec model
  then (Ok (PyTuple [PyStr "predictions"; model; X; y; PyInt cv]), w')
  else (Raise (Exc "TypeError" "estimator should be an estimator implementing fit"), w').

Definition fresh_axes (start : N) (n : nat) : list pyval :=
  map (fun k => PyObj (start + N.of_nat k) "AxesSubplot" []) (seq 0 n).

(** [matplotlib.pyplot.subplots(nrows, sharex=..., sharey=...)] as the library
    documents it, with its default [squeeze=True]: the answer is the pair of
    the new figure and its axes, where the axes are an array of [nrows] handles
    when [nrows > 1] and the one handle itself when [nrows = 1]. *)
Definition pyplot_subplots (nrows : Z) (sharex sharey : bool) (w : lab)
  : result pyval * lab :=
  let w' := log (SubplotsCall nrows sharex sharey) w in
  if nrows <=? 0
  then (Raise (Exc "ValueError" "Number of rows must be a positive integer"), w')
  else
    let fig := PyObj (next_oid w) "Figure" [] in
    let axes := fresh_axes (next_oid w + 1) (Z.to_nat nrows) in
    let w'' := {| calls := calls w'; next_oid := next_oid w + 1 + Z.to_N nrows |} in
    match axes with
    | [ax] => (Ok (PyTuple [fig; ax]), w'')
    | _ => (Ok (PyTuple [fig; PyList axes]), w'')
    end.

(** A display-surface provider that always answers with a sequence of handles,
    also for a single one ([squeeze=False]). *)
Definition unsqueezed_subplots (nrows : Z) (sharex sharey : bool) (w : lab)
  : result pyval * lab :=
  let w' := log (SubplotsCall nrows sharex sharey) w in
  if nrows <=? 0
  then (Raise (Exc "ValueError" "Number of rows must be a positive integer"), w')
  else
    (Ok (PyTuple [PyObj (next_oid w) "Figure" [];
                  PyList (fresh_axes (next_oid w + 1) (Z.to_nat nrows))]),
     {| calls := calls w'; next_oid := next_oid w + 1 + Z.to_N nrows |}).

(** Some estimators and data for the examples. *)
Definition svc : pyval := PyObj 1 "SVC" ["fit"; "predict"].
Definition ridge : pyval := PyObj 2 "Ridge" ["fit"; "predict"; "score"].
Definition lasso : pyval := PyObj 3 "Lasso" ["fit"; "predict"].
Definition scaler : pyval := PyObj 4 "StandardScaler" ["fit"; "transform"].
Definition X0 : pyval := PyList [PyList [PyInt 1; PyInt 2]; PyList [PyInt 3; PyInt 4]].
Definition y0 : pyval := PyList [PyInt 0; PyInt 1].
Definition lab0 : lab := {| calls := []; next_oid := 100 |}.

(** ** The visualization base classes

    [BaseVisualization], [FeatureVisualization] and [ModelVisualization]
    only declare an interface: their methods either do nothing ([pass]) or
    raise [NotImplementedError].  What a call does is then decided by
    whether the arguments fit the method's signature. *)

(** The parameter list of a [def]: the named parameters in order, each with
    or without a default value, and whether [*args] and [**kwargs] follow. *)
Record signature : Type := Signature {
  sig_params : list (string * bool);
  sig_varargs : bool;
  sig_varkw : bool
}.

Definition has_key (kw : gmap string pyval) (name : string) : bool :=
  match kw !! name with
  | Some _ => true
  | None => false
  end.

(** Binding the arguments of a call to a signature.  The call is refused
    with [TypeError] when there are more positional arguments than
    parameters and no [*args], when a keyword names a parameter already
    filled positionally, when a keyword names no parameter and there is no
    [**kwargs], or when a parameter without default is left unfilled.  The
    receiver of a method call is the first positional argument.  Only the
    class of the error is modelled, not the wording of its message. *)
Definition bind_arguments (fname : string) (sg : signature)
           (pos : list pyval) (kw : gmap string pyval) : result unit :=
  let names := map fst (sig_params sg) in
  let too_many :=
    negb (sig_varargs sg) && (length (sig_params sg) <? length pos)%nat in
  let twice := existsb (has_key kw) (take (length pos) names) in
  let unexpected :=
    negb (sig_varkw sg)
    && existsb (fun k => negb (existsb (String.eqb k) names))
               (map fst (map_to_list kw)) in
  let missing :=
    existsb (fun p => negb (snd p) && negb (has_key kw (fst p)))
            (drop (length pos) (sig_params sg)) in
  if too_many || twice || unexpected || missing
  then Raise (Exc "TypeError" (fname ++ "() got arguments that do not fit its signature"))
  else Ok tt.

Module BaseVisualization.

(** [def render(self)] *)
Definition render_sig : signature := Signature [("self", false)] false false.

Definition render (pos : list pyval) (kw : gmap string pyval) : result pyval :=
  result_bind (bind_arguments "render" render_sig pos kw) (fun _ =>
  Raise (Exc "NotImplementedError"
             "All visualizations must specify their own render methodology")).

End BaseVisualization.

Module FeatureVisualization.

(** [def fit(self, X, y=None, **kwargs)] *)
Definition fit_sig : signature :=
  Signature [("self", false); ("X", false); ("y", true)] false true.

Definition fit (pos : list pyval) (kw : gmap string pyval) : result pyval :=
  result_bind (bind_arguments "fit" fit_sig pos kw) (fun _ => Ok PyNone).

(** [def transform(self, X)] *)
Definition transform_sig : signature :=
  Signature [("self", false); ("X", false)] false false.

Definition transform (pos : list pyval) (kw : gmap string pyval) : result pyval :=
  result_bind (bind_arguments "transform" transform_sig pos kw) (fun _ => Ok PyNone).

(** [def render(self, *args, **kwargs)] *)
Definition render_sig : signature := Signature [("self", false)] true true.

Definition render (pos : list pyval) (kw : gmap string pyval) : result pyval :=
  result_bind (bind_arguments "render" render_sig pos kw) (fun _ =>
  Raise (Exc "NotImplementedError"
             "Please specify how to render the feature visualization")).

End FeatureVisualization.

Module ModelVisualization.

(** [def fit(self, X, y=None, **kwargs)] *)
Definition fit_sig : signature :=
  Signature [("self", false); ("X", false); ("y", true)] false true.

Definition fit (pos : list pyval) (kw : gmap string pyval) : result pyval :=
  result_bind (bind_arguments "fit" fit_sig pos kw) (fun _ => Ok PyNone).

(** [def predict(self, X)] *)
Definition predict_sig : signature :=
  Signature [("self", false); ("X", false)] false false.

Definition predict (pos : list pyval) (kw : gmap string pyval) : result pyval :=
  result_bind (bind_arguments "predict" predict_sig pos kw) (fun _ => Ok PyNone).

(** [def render(self, model=None)] *)
Definition render_sig : signature :=
  Signature [("self", false); ("model", true)] false false.

Definition render (pos : list pyval) (kw : gmap string pyval) : result pyval :=
  result_bind (bind_arguments "render" render_sig pos kw) (fun _ =>
  Raise (Exc "NotImplementedError"
             "Please specify how to render the model visualization")).

End ModelVisualization.

(** An instance of a visualization class, for the examples. *)
Definition viz : pyval := PyObj 9 "FeatureVisualization" ["fit"; "transform"; "render"].

(** ** The adapter *)

Section MultiModelMixin.

(** The state of everything that lives outside the adapter: the plotting
    library's global figure registry, random number generators, ... *)
Context {W : Type}.

(** [yellowbrick.utils.isestimator] and [yellowbrick.utils.get_model_name]. *)
Variable isestimator : pyval -> bool.
Variable get_model_name : pyval -> result pyval.

(** [sklearn.cross_validation.cross_val_predict(model, X, y, cv)]. *)
Variable cvp : pyval -> pyval -> pyval -> Z -> W -> result pyval * W.

(** [matplotlib.pyplot.subplots(nrows, sharex, sharey)]. *)
Variable plt_subplots : Z -> bool -> bool -> W -> result pyval * W.

(** The two library routines act on the values they are given and on the
    outside world; neither is handed the adapter. *)

(** The instance [self] (its attribute dictionary) and the outside world. *)
Record state : Type := State { obj : gmap string pyval; world : W }.

Definition set_world (σ : state) (w : W) : state :=
  {| obj := obj σ; world := w |}.

(** Computations that read and write the state and may raise. *)
Definition M (A : Type) : Type := state -> result A * state.

Definition ret {A} (a : A) : M A := fun σ => (Ok a, σ).

Definition bind {A B} (c : M A) (k : A -> M B) : M B :=
  fun σ =>
    match c σ with
    | (Ok a, σ') => k a σ'
    | (Raise e, σ') => (Raise e, σ')
    end.

Definition lift_result {A} (r : result A) : M A := fun σ => (r, σ).

Definition lift_world {A} (c : W -> result A * W) : M A :=
  fun σ => let '(r, w) := c (world σ) in (r, set_world σ w).

(** [self.name] *)
Definition getattr (name : string) : M pyval :=
  fun σ =>
    match obj σ !! name with
    | Some v => (Ok v, σ)
    | None =>
        (Raise (Exc "AttributeError" ("object has no attribute " ++ name)), σ)
    end.

(** [self.name = v] *)
Definition setattr (name : string) (v : pyval) : M unit :=
  fun σ => (Ok tt, {| obj := <[name := v]> (obj σ); world := world σ |}).

Notation "'let!' x ':=' c 'in' k" := (bind c (fun x => k))
  (at level 10, x name, c at level 100, k at level 200,
   format "'[v' 'let!'  x  ':='  c  'in' '/' k ']'").

(** The model collection the constructor stores: a single estimator is
    wrapped in a list, anything else is kept as it is. *)
Definition normalize (models : pyval) : pyval :=
  if isestimator models then PyList [models] else models.

(** [list(map(get_model_name, models))] *)
Definition default_names (models : pyval) : result pyval :=
  result_bind (py_iter models) (fun items =>
  result_bind (map_list get_model_name items) (fun names =>
  Ok (PyList names))).

(** [MultiModelMixin.__init__(self, models, **kwargs)] *)
Definition __init__ (models : pyval) (kwargs : gmap string pyval) : M unit :=
  let models := normalize models in
  let! _ := setattr "models" models in
  let! default := lift_result (default_names models) in
  setattr "names" (fst (dict_pop kwargs "names" default)).

(** [MultiModelMixin(models, **kwargs)]: a fresh instance, initialised. *)
Definition construct (models : pyval) (kwargs : gmap string pyval) (w : W)
  : result unit * state :=
  __init__ models kwargs {| obj := ∅; world := w |}.

(** The names the constructor stores once [default] is evaluated. *)
Definition default_or (kwargs : gmap string pyval) (default : pyval) : pyval :=
  fst (dict_pop kwargs "names" default).

(** [MultiModelMixin.generate_subplots(self)] *)
Definition generate_subplots : M pyval :=
  let! models := getattr "models" in
  let! n := lift_result (py_len models) in
  let! r := lift_world (plt_subplots n true true) in
  let! p := lift_result (py_unpack2 r) in
  ret (snd p).

(** *** The generator of [predict]

    Calling [predict] runs nothing: it makes a generator object holding the
    arguments.  The body runs when the generator is advanced, up to the next
    [yield].  A generator is
    - [GenCreated X y]: not started yet;
    - [GenSuspended rest X y]: paused at the [yield], where [rest] is what
      the iterator over [self.models] has left to visit (nothing in the
      class changes that list in place, so the items still to come are
      fixed once the loop has started);
    - [GenClosed]: returned or raised. *)
Inductive generator : Type :=
| GenCreated (X y : pyval)
| GenSuspended (rest : list pyval) (X y : pyval)
| GenClosed.

(** What advancing a generator gives its caller. *)
Inductive outcome : Type :=
| Yielded (v : pyval)
| Stopped
| Raised (e : pyexc).

(** [MultiModelMixin.predict(self, X, y)] *)
Definition predict (X y : pyval) : generator := GenCreated X y.

(** One turn of [for model in ...: yield cvp(model, X, y, cv=12)].  An error
    of the routine ends the generator and goes to the consumer; this is what
    Python does for every error but a [StopIteration], which the interpreter
    does not hand on as it is. *)
Definition resume (rest : list pyval) (X y : pyval) (σ : state)
  : outcome * generator * state :=
  match rest with
  | [] => (Stopped, GenClosed, σ)
  | model :: rest' =>
      match lift_world (cvp model X y 12) σ with
      | (Ok v, σ') => (Yielded v, GenSuspended rest' X y, σ')
      | (Raise e, σ') => (Raised e, GenClosed, σ')
      end
  end.

(** [next(g)] *)
Definition gen_next (g : generator) (σ : state) : outcome * generator * state :=
  match g with
  | GenCreated X y =>
      match (let! models := getattr "models" in
             lift_result (py_iter models)) σ with
      | (Ok items, σ') => resume items X y σ'
      | (Raise e, σ') => (Raised e, GenClosed, σ')
      end
  | GenSuspended rest X y => resume rest X y σ
  | GenClosed => (Stopped, GenClosed, σ)
  end.

(** How a consumer's loop over a generator ended. *)
Inductive ending : Type :=
| Exhausted            (** the generator returned *)
| Failed (e : pyexc)   (** the generator raised [e] *)
| Pending.             (** the consumer stopped asking *)

(** A consumer that advances the generator at most [n] times, as
    [for p in g] with a bound on the turns: the values delivered to it, how
    the loop ended, the generator and the state it leaves. *)
Fixpoint iterate (n : nat) (g : generator) (σ : state)
  : list pyval * ending * generator * state :=
  match n with
  | O => ([], Pending, g, σ)
  | S n' =>
      match gen_next g σ with
      | (Yielded v, g', σ') =>
          let '(vs, e, g'', σ'') := iterate n' g' σ' in (v :: vs, e, g'', σ'')
      | (Stopped, g', σ') => ([], Exhausted, g', σ')
      | (Raised e, g', σ') => ([], Failed e, g', σ')
      end
  end.

(** The specification's reading of produce-predictions: for each model, in
    order, the cross-validation routine at a fold count of 12, until one of
    them fails.  The predictions, the error if any, and the world left. *)
Fixpoint cross_validate_each (models : list pyval) (X y : pyval) (w : W)
  : list pyval * option pyexc * W :=
  match models with
  | [] => ([], None, w)
  | model :: rest =>
      match cvp model X y 12 w with
      | (Ok v, w') =>
          let '(vs, err, w'') := cross_validate_each rest X y w' in
          (v :: vs, err, w'')
      | (Raise e, w') => ([], Some e, w')
      end
  end.

Definition ending_of (err : option pyexc) : ending :=
  match err with
  | None => Exhausted
  | Some e => Failed e
  end.

(** ** Construction *)

Lemma map_list_Forall2 (f : pyval -> result pyval) (items names : list pyval) :
  map_list f items = Ok names <-> Forall2 (fun m n => f m = Ok n) items names.
Proof.
  revert names. induction items as [|x rest IH]; intros names; simpl.
  - split.
    + intros [= <-]. constructor.
    + intros H. inversion H. reflexivity.
  - split.
    + destruct (f x) as [n|e] eqn:Hx; simpl; [|discriminate].
      destruct (map_list f rest) as [ns|e] eqn:Hrest; simpl; [|discriminate].
      intros [= <-]. constructor; [assumption|]. apply IH. reflexivity.
    + intros H. inversion H as [|? n ? ns Hx Hrest]; subst.
      rewrite Hx. simpl. apply IH in Hrest. rewrite Hrest. reflexivity.
Qed.


Lemma map_list_total (f : pyval -> result pyval) (items : list pyval) :
  Forall (fun x => exists n, f x = Ok n) items ->
  exists names, map_list f items = Ok names.
Proof.
  induction 1 as [|x rest [n Hx] _ [ns IH]]; simpl.
  - eexists. reflexivity.
  - rewrite Hx, IH. simpl. eexists. reflexivity.
Qed.

(** The constructor, computed: the models are stored first, the default
    names are derived next whatever [kwargs] holds, and only then does
    [kwargs] decide which names are stored. *)
Lemma construct_eq (models : pyval) (kwargs : gmap string pyval) (w : W) :
  construct models kwargs w =
  match default_names (normalize models) with
  | Ok default =>
      (Ok tt,
       {| obj := <["names" := default_or kwargs default]>
                   (<["models" := normalize models]> ∅);
          world := w |})
  | Raise e =>
      (Raise e, {| obj := <["models" := normalize models]> ∅; world := w |})
  end.
Proof.
  unfold construct, __init__, normalize, bind, setattr, lift_result. simpl.
  destruct (default_names _); reflexivity.
Qed.

Lemma default_or_absent (kwargs : gmap string pyval) (default : pyval) :
  kwargs !! "names" = None -> default_or kwargs default = default.
Proof. intros H. unfold default_or, dict_pop. rewrite H. reflexivity. Qed.

Lemma default_or_supplied (kwargs : gmap string pyval) (default v : pyval) :
  kwargs !! "names" = Some v -> default_or kwargs default = v.
Proof. intros H. unfold default_or, dict_pop. rewrite H. reflexivity. Qed.

(** C1. Constructing the adapter with a single estimator [m] (one that
    passes the capability check), without explicit names, gives
    [self.models == [m]] and [self.names == [n]], where [n] is the class
    name the name helper extracts from [m]. *)
Theorem construct_single_estimator
        (m n : pyval) (kwargs : gmap string pyval) (w : W) :
  isestimator m = true ->
  get_model_name m = Ok n ->
  kwargs !! "names" = None ->
  exists σ,
    construct m kwargs w = (Ok tt, σ) /\
    obj σ !! "models" = Some (PyList [m]) /\
    obj σ !! "names" = Some (PyList [n]) /\
    world σ = w.
Proof.
  intros Hest Hname Hkw. rewrite construct_eq. unfold normalize, default_names.
  rewrite Hest. simpl. rewrite Hname. simpl.
  eexists. split; [reflexivity|]. simpl.
  rewrite (default_or_absent _ _ Hkw).
  rewrite lookup_insert_ne by discriminate.
  rewrite !lookup_insert_eq. auto.
Qed.

(** C2. Constructing the adapter with an ordered collection of models that
    is not itself an estimator, without explicit names, stores that
    collection unchanged as [self.models] and stores as [self.names] the
    list of the models' class names, one per model and in the same order
    (so it has the collection's length). *)
Theorem construct_collection
        (models : pyval) (ms ns : list pyval)
        (kwargs : gmap string pyval) (w : W) :
  isestimator models = false ->
  py_iter models = Ok ms ->
  Forall2 (fun m n => get_model_name m = Ok n) ms ns ->
  kwargs !! "names" = None ->
  exists σ,
    construct models kwargs w = (Ok tt, σ) /\
    obj σ !! "models" = Some models /\
    obj σ !! "names" = Some (PyList ns) /\
    length ns = length ms.
Proof.
  intros Hest Hiter Hnames Hkw. rewrite construct_eq.
  unfold normalize, default_names. rewrite Hest, Hiter. simpl.
  apply map_list_Forall2 in Hnames as Hmap. rewrite Hmap. simpl.
  eexists. split; [reflexivity|]. simpl.
  rewrite (default_or_absent _ _ Hkw).
  rewrite lookup_insert_ne by discriminate.
  rewrite !lookup_insert_eq.
  repeat split. symmetry. eapply Forall2_length. eassumption.
Qed.

(** C3. When [names] is supplied, the constructor stores it verbatim,
    whatever its length: for every model collection whose class names can
    be extracted, construction succeeds and [self.names] is the supplied
    value itself.  The supplied names are never inspected: if construction
    with them raises, it raises the same error without them. *)
Theorem construct_names_verbatim
        (models v : pyval) (ms : list pyval)
        (kwargs : gmap string pyval) (w : W) :
  kwargs !! "names" = Some v ->
  py_iter (normalize models) = Ok ms ->
  Forall (fun m => exists n, get_model_name m = Ok n) ms ->
  (exists σ,
     construct models kwargs w = (Ok tt, σ) /\
     obj σ !! "models" = Some (normalize models) /\
     obj σ !! "names" = Some v) /\
  (forall v' : pyval,
     fst (construct models (<["names" := v']> kwargs) w) = Ok tt) /\
  (forall (e : pyexc) (σ : state),
     construct models kwargs w = (Raise e, σ) ->
     construct models (delete "names" kwargs) w = (Raise e, σ)).
Proof.
  intros Hkw Hiter Hall.
  destruct (map_list_total _ _ Hall) as [ns Hns].
  assert (Hdef : default_names (normalize models) = Ok (PyList ns)).
  { unfold default_names. rewrite Hiter. simpl. rewrite Hns. reflexivity. }
  split; [|split].
  - rewrite construct_eq, Hdef.
    eexists. split; [reflexivity|]. simpl.
    rewrite (default_or_supplied _ _ _ Hkw).
    rewrite lookup_insert_ne by discriminate.
    rewrite !lookup_insert_eq. auto.
  - intros v'. rewrite construct_eq, Hdef. reflexivity.
  - intros e σ. rewrite !construct_eq, Hdef. discriminate.
Qed.

(** C6, as the code has it. For an input that is a single estimator, or a
    list or a tuple of models, and that the constructor accepts, the stored
    model collection is [[m]] for a single estimator [m] and the input
    sequence itself otherwise, with the same items in the same order.  It is
    empty exactly when the input is an empty list or tuple, and it is not
    empty for a single estimator or a list or tuple with at least one
    model.  Iterables that can be visited only once are no part of this
    statement. *)
Theorem construct_models_collection
        (models : pyval) (items : list pyval)
        (kwargs : gmap string pyval) (w : W) (σ : state) :
  construct models kwargs w = (Ok tt, σ) ->
  (isestimator models = true /\ items = [models]) \/
  (isestimator models = false /\
   (models = PyList items \/ models = PyTuple items)) ->
  obj σ !! "models"
  = Some (if isestimator models then PyList [models] else models) /\
  py_iter (if isestimator models then PyList [models] else models) = Ok items /\
  py_len (if isestimator models then PyList [models] else models)
  = Ok (Z.of_nat (length items)) /\
  (items = [] <->
   isestimator models = false /\ (models = PyList [] \/ models = PyTuple [])) /\
  (isestimator models = true \/
   (exists m rest, models = PyList (m :: rest) \/ models = PyTuple (m :: rest)) ->
   items <> []).
Proof.
  intros Hcons Hscope.
  assert (Hstored : obj σ !! "models" = Some (normalize models)).
  { revert Hcons. rewrite construct_eq.
    destruct (default_names (normalize models)); [|discriminate].
    intros [= <-]. simpl.
    rewrite lookup_insert_ne by discriminate. apply lookup_insert_eq. }
  unfold normalize in Hstored.
  destruct Hscope as [[Hest ->] | [Hest [-> | ->]]]; rewrite Hest in *; simpl.
  - split; [assumption|]. split; [reflexivity|]. split; [reflexivity|].
    split; [|discriminate].
    split; [discriminate | intros [? _]; discriminate].
  - split; [assumption|]. split; [reflexivity|]. split; [reflexivity|].
    split; [split|].
    + intros ->. auto.
    + intros [_ [[= ->] | [=]]]. reflexivity.
    + intros [? | (m & rest & [[= ->] | [=]])]; discriminate.
  - split; [assumption|]. split; [reflexivity|]. split; [reflexivity|].
    split; [split|].
    + intros ->. auto.
    + intros [_ [[=] | [= ->]]]. reflexivity.
    + intros [? | (m & rest & [[=] | [= ->]])]; discriminate.
Qed.


(** ** Display surfaces *)

Lemma length_chars (s : string) : length (chars s) = String.length s.
Proof. induction s as [|c s IH]; simpl; [reflexivity | now rewrite IH]. Qed.

Lemma py_len_iter (v : pyval) (items : list pyval) :
  py_iter v = Ok items -> py_len v = Ok (Z.of_nat (length items)).
Proof.
  destruct v; simpl; try discriminate; intros [= <-]; try reflexivity.
  now rewrite length_chars.
Qed.

Lemma set_world_same (σ : state) : set_world σ (world σ) = σ.
Proof. destruct σ. reflexivity. Qed.

(** For an adapter holding N models, [generate_subplots] asks the
    display-surface provider for exactly N surfaces with both the x axis
    and the y axis shared, and returns the axes part of the provider's
    answer as it is. *)
Lemma generate_subplots_returns_provider_axes
        (σ : state) (mv r fig axes : pyval) (ms : list pyval) (w' : W) :
  obj σ !! "models" = Some mv ->
  py_iter mv = Ok ms ->
  plt_subplots (Z.of_nat (length ms)) true true (world σ) = (Ok r, w') ->
  py_unpack2 r = Ok (fig, axes) ->
  generate_subplots σ = (Ok axes, set_world σ w').
Proof.
  intros Hmodels Hiter Hcall Hpair.
  unfold generate_subplots, bind, getattr, lift_result, lift_world, ret.
  rewrite Hmodels, (py_len_iter _ _ Hiter), Hcall, Hpair. reflexivity.
Qed.

(** ** Predictions *)

(** Advancing a fresh generator first looks up [self.models] and starts to
    iterate over it. *)
Lemma gen_next_created (σ : state) (mv : pyval) (ms : list pyval) (X y : pyval) :
  obj σ !! "models" = Some mv ->
  py_iter mv = Ok ms ->
  gen_next (predict X y) σ = gen_next (GenSuspended ms X y) σ.
Proof.
  intros Hmodels Hiter. unfold predict, gen_next, bind, getattr, lift_result.
  rewrite Hmodels, Hiter. reflexivity.
Qed.

Lemma iterate_created (n : nat) (σ : state) (mv : pyval) (ms : list pyval)
      (X y : pyval) :
  obj σ !! "models" = Some mv ->
  py_iter mv = Ok ms ->
  iterate (S n) (predict X y) σ = iterate (S n) (GenSuspended ms X y) σ.
Proof.
  intros Hmodels Hiter.
  change (iterate (S n) (predict X y) σ) with
    (match gen_next (predict X y) σ with
     | (Yielded v, g', σ') =>
         let '(vs, e, g'', σ'') := iterate n g' σ' in (v :: vs, e, g'', σ'')
     | (Stopped, g', σ') => ([], Exhausted, g', σ')
     | (Raised e, g', σ') => ([], Failed e, g', σ')
     end).
  rewrite (gen_next_created _ _ _ _ _ Hmodels Hiter). reflexivity.
Qed.

(** Consuming a started generator to its end runs the routine on what is
    left of the models, in order. *)
Lemma iterate_suspended (rest : list pyval) (X y : pyval) :
  forall (n : nat) (σ : state) (vs : list pyval) (err : option pyexc) (w' : W),
    (length rest < n)%nat ->
    cross_validate_each rest X y (world σ) = (vs, err, w') ->
    iterate n (GenSuspended rest X y) σ
    = (vs, ending_of err, GenClosed, set_world σ w').
Proof.
  induction rest as [|m rest IH]; intros n σ vs err w' Hn Hcv.
  - destruct n as [|n]; [simpl in Hn; lia|].
    simpl in *. injection Hcv as <- <- <-.
    now rewrite set_world_same.
  - destruct n as [|n]; [simpl in Hn; lia|].
    simpl in Hn. simpl in Hcv. simpl. unfold lift_world.
    destruct (cvp m X y 12 (world σ)) as [[v|e] w1].
    + destruct (cross_validate_each rest X y w1) as [[vs1 err1] w2] eqn:Hrest.
      injection Hcv as <- <- <-.
      rewrite (IH n (set_world σ w1) vs1 err1 w2); [reflexivity|lia|exact Hrest].
    + injection Hcv as <- <- <-. reflexivity.
Qed.

(** Advancing a started generator [k] times runs the routine on the next
    [k] models and on no other. *)
Lemma iterate_suspended_prefix (rest : list pyval) (X y : pyval) :
  forall (k : nat) (σ : state) (vs : list pyval) (err : option pyexc) (w' : W),
    cross_validate_each (take k rest) X y (world σ) = (vs, err, w') ->
    (iterate k (GenSuspended rest X y) σ).1.1.1 = vs /\
    (iterate k (GenSuspended rest X y) σ).2 = set_world σ w'.
Proof.
  induction rest as [|m rest IH]; intros k σ vs err w' Hcv.
  - rewrite take_nil in Hcv. simpl in Hcv. injection Hcv as <- <- <-.
    rewrite set_world_same. destruct k; auto.
  - destruct k as [|k]; simpl in Hcv.
    + injection Hcv as <- <- <-. rewrite set_world_same. auto.
    + simpl. unfold lift_world.
      destruct (cvp m X y 12 (world σ)) as [[v|e] w1].
      * destruct (cross_validate_each (take k rest) X y w1)
          as [[vs1 err1] w2] eqn:Hrest.
        injection Hcv as <- <- <-.
        destruct (IH k (set_world σ w1) vs1 err1 w2 Hrest) as [Hvs Hσ].
        destruct (iterate k (GenSuspended rest X y) (set_world σ w1))
          as [[[vs2 e2] g2] σ2].
        simpl in *. subst. auto.
      * injection Hcv as <- <- <-. auto.
Qed.

(** Every prediction of an error-free run is an answer of the routine for
    the model at the same position, the data, and a fold count of 12. *)
Lemma cross_validate_each_elements (ms : list pyval) (X y : pyval) :
  forall (w : W) (vs : list pyval) (w' : W),
    cross_validate_each ms X y w = (vs, None, w') ->
    Forall2 (fun m v => exists w1 w2, cvp m X y 12 w1 = (Ok v, w2)) ms vs.
Proof.
  induction ms as [|m ms IH]; intros w vs w' Hcv; simpl in Hcv.
  - injection Hcv as <- _. constructor.
  - destruct (cvp m X y 12 w) as [[v|e] w1] eqn:Hm; [|discriminate].
    destruct (cross_validate_each ms X y w1) as [[vs1 err1] w2] eqn:Hrest.
    injection Hcv as <- -> <-.
    constructor; [eauto | eapply IH; eassumption].
Qed.

(** A started generator whose routine fails at [m] stops there, however
    many models come after [m]. *)
Lemma iterate_suspended_failure (post : list pyval) (m X y : pyval)
      (e : pyexc) (w2 : W) :
  forall (pre : list pyval) (n : nat) (σ : state) (vs : list pyval) (w1 : W),
    cross_validate_each pre X y (world σ) = (vs, None, w1) ->
    cvp m X y 12 w1 = (Raise e, w2) ->
    (length pre < n)%nat ->
    iterate n (GenSuspended (pre ++ m :: post) X y) σ
    = (vs, Failed e, GenClosed, set_world σ w2).
Proof.
  induction pre as [|p pre IH]; intros n σ vs w1 Hpre Hm Hn;
    (destruct n as [|n]; [simpl in Hn; lia|]); simpl in *.
  - injection Hpre as <- <-. unfold lift_world. rewrite Hm. reflexivity.
  - unfold lift_world.
    destruct (cvp p X y 12 (world σ)) as [[v|e'] w'] eqn:Hp; [|discriminate].
    destruct (cross_validate_each pre X y w') as [[vs1 err1] w''] eqn:Hrest.
    injection Hpre as <- -> <-.
    rewrite (IH n (set_world σ w') vs1 w'' Hrest Hm); [reflexivity|lia].
Qed.

(** C4. For an adapter holding the models [ms], consuming [predict(X, y)]
    delivers what running the cross-validation routine on each model in
    order, with a fold count of 12, delivers: when no call fails these are
    exactly as many predictions as there are models, the i-th one being
    the routine's answer for the i-th model, [X], [y] and 12.  The
    sequence is lazy: advancing it [k] times runs the routine for the
    first [k] models only. *)
Theorem predict_cross_validates_each
        (σ : state) (mv : pyval) (ms : list pyval) (X y : pyval) :
  obj σ !! "models" = Some mv ->
  py_iter mv = Ok ms ->
  (forall (n : nat) (vs : list pyval) (err : option pyexc) (w' : W),
      (length ms < n)%nat ->
      cross_validate_each ms X y (world σ) = (vs, err, w') ->
      iterate n (predict X y) σ
      = (vs, ending_of err, GenClosed, set_world σ w')) /\
  (forall (vs : list pyval) (w' : W),
      cross_validate_each ms X y (world σ) = (vs, None, w') ->
      length vs = length ms /\
      Forall2 (fun m v => exists w1 w2, cvp m X y 12 w1 = (Ok v, w2)) ms vs) /\
  (forall (k : nat) (vs : list pyval) (err : option pyexc) (w' : W),
      cross_validate_each (take k ms) X y (world σ) = (vs, err, w') ->
      (iterate k (predict X y) σ).1.1.1 = vs /\
      (iterate k (predict X y) σ).2 = set_world σ w').
Proof.
  intros Hmodels Hiter. split; [|split].
  - intros n vs err w' Hn Hcv.
    destruct n as [|n]; [lia|].
    rewrite (iterate_created _ _ _ _ _ _ Hmodels Hiter).
    now apply iterate_suspended.
  - intros vs w' Hcv.
    pose proof (cross_validate_each_elements _ _ _ _ _ _ Hcv) as Hall.
    split; [|exact Hall]. symmetry. eapply Forall2_length. exact Hall.
  - intros k vs err w' Hcv.
    destruct k as [|k].
    + simpl in *. injection Hcv as <- <- <-. now rewrite set_world_same.
    + rewrite (iterate_created _ _ _ _ _ _ Hmodels Hiter).
      eapply iterate_suspended_prefix. exact Hcv.
Qed.

(** C7, as the code has it. When the routine raises, for some model, an
    error that is not a [StopIteration], the consumer receives that very
    error at the turn of that model, after the predictions of all earlier
    models have been delivered to it; the generator is then closed: no later
    model is cross-validated and advancing it again only reports exhaustion.
    A [StopIteration] raised inside a generator is not handed on as it is by
    the interpreter and is no part of this statement; exceptions are told
    apart by the name of their class. *)
Theorem predict_error_propagates
        (σ : state) (mv m : pyval) (pre post : list pyval) (X y : pyval)
        (vs : list pyval) (w1 w2 : W) (e : pyexc) (n : nat) :
  obj σ !! "models" = Some mv ->
  py_iter mv = Ok (pre ++ m :: post)%list ->
  cross_validate_each pre X y (world σ) = (vs, None, w1) ->
  cvp m X y 12 w1 = (Raise e, w2) ->
  exc_class e <> "StopIteration" ->
  (length pre < n)%nat ->
  iterate n (predict X y) σ = (vs, Failed e, GenClosed, set_world σ w2) /\
  length vs = length pre /\
  (forall σ' : state, gen_next GenClosed σ' = (Stopped, GenClosed, σ')).
Proof.
  intros Hmodels Hiter Hpre Hm _ Hn.
  split; [|split].
  - destruct n as [|n]; [lia|].
    rewrite (iterate_created _ _ _ _ _ _ Hmodels Hiter).
    eapply iterate_suspended_failure; eassumption.
  - symmetry. eapply Forall2_length.
    eapply cross_validate_each_elements. exact Hpre.
  - reflexivity.
Qed.

(** ** The adapter is never written after construction *)

Lemma generate_subplots_frame (σ : state) :
  obj (generate_subplots σ).2 = obj σ.
Proof.
  unfold generate_subplots, bind, getattr, lift_result, lift_world, ret.
  destruct (obj σ !! "models") as [mv|]; [|reflexivity].
  destruct (py_len mv) as [n|e]; [|reflexivity].
  destruct (plt_subplots n true true (world σ)) as [[r|e] w']; [|reflexivity].
  destruct (py_unpack2 r); reflexivity.
Qed.

Lemma resume_frame (rest : list pyval) (X y : pyval) (σ : state) :
  obj (resume rest X y σ).2 = obj σ.
Proof.
  destruct rest as [|m rest]; simpl; [reflexivity|]. unfold lift_world.
  destruct (cvp m X y 12 (world σ)) as [[v|e] w']; reflexivity.
Qed.

Lemma gen_next_frame (g : generator) (σ : state) :
  obj (gen_next g σ).2 = obj σ.
Proof.
  destruct g as [X y|rest X y|]; simpl.
  - unfold bind, getattr, lift_result.
    destruct (obj σ !! "models") as [mv|]; [|reflexivity].
    destruct (py_iter mv); [apply resume_frame | reflexivity].
  - apply resume_frame.
  - reflexivity.
Qed.

Lemma iterate_frame (n : nat) :
  forall (g : generator) (σ : state), obj (iterate n g σ).2 = obj σ.
Proof.
  induction n as [|n IH]; intros g σ; simpl; [reflexivity|].
  pose proof (gen_next_frame g σ) as Hstep.
  destruct (gen_next g σ) as [[[v| |e] g'] σ']; simpl in *; try assumption.
  specialize (IH g' σ').
  destruct (iterate n g' σ') as [[[vs en] g''] σ'']. simpl in *. congruence.
Qed.

(** C8. No operation writes the adapter after construction:
    [generate_subplots] and [predict], also when its generator (or any
    generator of the adapter) is consumed to the end, leave [self.models]
    and [self.names], and every other attribute, as they were. *)
Theorem operations_leave_adapter_unchanged
        (σ : state) (X y : pyval) (g : generator) (n : nat) :
  (obj (generate_subplots σ).2 = obj σ /\
   obj (generate_subplots σ).2 !! "models" = obj σ !! "models" /\
   obj (generate_subplots σ).2 !! "names" = obj σ !! "names") /\
  (obj (iterate n (predict X y) σ).2 = obj σ /\
   obj (iterate n (predict X y) σ).2 !! "models" = obj σ !! "models" /\
   obj (iterate n (predict X y) σ).2 !! "names" = obj σ !! "names") /\
  obj (iterate n g σ).2 = obj σ.
Proof.
  rewrite generate_subplots_frame, !iterate_frame. auto.
Qed.

(** ** Reproducible predictions *)

Section Deterministic.

(** The routine's answer (a prediction or an error) is a function of the
    model, the data and the fold count: it does not depend on the state
    of the world. *)
Hypothesis cvp_deterministic :
  forall (m X y : pyval) (cv : Z) (w w' : W),
    (cvp m X y cv w).1 = (cvp m X y cv w').1.

Lemma resume_deterministic (rest : list pyval) (X y : pyval) (σ σ' : state) :
  obj σ = obj σ' ->
  (resume rest X y σ).1 = (resume rest X y σ').1 /\
  obj (resume rest X y σ).2 = obj (resume rest X y σ').2.
Proof.
  intros Hobj. destruct rest as [|m rest]; simpl; [auto|]. unfold lift_world.
  pose proof (cvp_deterministic m X y 12 (world σ) (world σ')) as Hdet.
  destruct (cvp m X y 12 (world σ)) as [[v|e] w1];
    destruct (cvp m X y 12 (world σ')) as [[v'|e'] w1'];
    simpl in *; try discriminate; injection Hdet as <-; auto.
Qed.

Lemma gen_next_deterministic (g : generator) (σ σ' : state) :
  obj σ = obj σ' ->
  (gen_next g σ).1 = (gen_next g σ').1 /\
  obj (gen_next g σ).2 = obj (gen_next g σ').2.
Proof.
  intros Hobj. destruct g as [X y|rest X y|]; simpl.
  - unfold bind, getattr, lift_result. rewrite Hobj.
    destruct (obj σ' !! "models") as [mv|]; [|auto].
    destruct (py_iter mv); [now apply resume_deterministic | auto].
  - now apply resume_deterministic.
  - auto.
Qed.

Lemma iterate_deterministic (n : nat) :
  forall (g : generator) (σ σ' : state),
    obj σ = obj σ' ->
    (iterate n g σ).1 = (iterate n g σ').1.
Proof.
  induction n as [|n IH]; intros g σ σ' Hobj; simpl; [reflexivity|].
  destruct (gen_next_deterministic g σ σ' Hobj) as [Hout Hobj'].
  destruct (gen_next g σ) as [[o g1] σ1], (gen_next g σ') as [[o' g1'] σ1'].
  simpl in *. injection Hout as <- <-.
  destruct o as [v| |e]; try reflexivity.
  specialize (IH g1 σ1 σ1' Hobj').
  destruct (iterate n g1 σ1) as [[[vs en] g2] σ2],
           (iterate n g1 σ1') as [[[vs' en'] g2'] σ2'].
  simpl in *. congruence.
Qed.

(** C9. With a deterministic routine, calling [predict] a second time
    with the same [X] and [y] and consuming it gives the same sequence
    (the same predictions, ending the same way) as the first time.
    Nothing is remembered from the first run: the second one runs the
    routine on every model again, from the world the first run left. *)
Theorem predict_twice_identical (σ : state) (X y : pyval) (n : nat) :
  let first := iterate n (predict X y) σ in
  let second := iterate n (predict X y) first.2 in
  second.1.1.1 = first.1.1.1 /\
  second.1.1.2 = first.1.1.2 /\
  (forall (mv : pyval) (ms : list pyval),
      obj σ !! "models" = Some mv ->
      py_iter mv = Ok ms ->
      (length ms < n)%nat ->
      world second.2 = (cross_validate_each ms X y (world first.2)).2).
Proof.
  intros first second.
  assert (Hobj : obj first.2 = obj σ) by apply iterate_frame.
  pose proof (iterate_deterministic n (predict X y) _ _ Hobj) as Hsame.
  fold second in Hsame. fold first in Hsame.
  split; [|split].
  - now rewrite Hsame.
  - now rewrite Hsame.
  - intros mv ms Hmodels Hiter Hn. subst second.
    destruct n as [|n]; [lia|].
    rewrite <- Hobj in Hmodels.
    rewrite (iterate_created _ _ _ _ _ _ Hmodels Hiter).
    destruct (cross_validate_each ms X y (world first.2))
      as [[vs err] w'] eqn:Hcv.
    rewrite (iterate_suspended _ _ _ _ _ _ _ _ Hn Hcv). reflexivity.
Qed.

End Deterministic.

(** ** Further properties of the constructor *)

(** An input that is neither an estimator nor iterable is refused by the
    derivation of the default names, with [iter]'s [TypeError], whatever
    the keyword arguments are; [self.models] has been assigned by then and
    [self.names] has not. *)
Theorem construct_not_iterable
        (models : pyval) (e : pyexc) (kwargs : gmap string pyval) (w : W) :
  isestimator models = false ->
  py_iter models = Raise e ->
  construct models kwargs w
  = (Raise e, {| obj := <["models" := models]> ∅; world := w |}) /\
  exc_class e = "TypeError".
Proof.
  intros Hest Hiter. split.
  - rewrite construct_eq. unfold default_names, normalize.
    rewrite Hest, Hiter. reflexivity.
  - destruct models; simpl in Hiter; try discriminate;
      injection Hiter as <-; reflexivity.
Qed.

(** The constructor looks at no keyword argument but [names]: two calls
    that agree on [names] build the same adapter, whatever else is passed. *)
Theorem construct_ignores_other_keywords
        (models : pyval) (kwargs kwargs' : gmap string pyval) (w : W) :
  kwargs !! "names" = kwargs' !! "names" ->
  construct models kwargs w = construct models kwargs' w.
Proof.
  intros Hnames. rewrite !construct_eq. unfold default_or, dict_pop.
  rewrite Hnames. destruct (default_names (normalize models)); [|reflexivity].
  destruct (kwargs' !! "names"); reflexivity.
Qed.

(** Building a second adapter from the stored models and the stored names of
    a first one gives the same adapter again, provided the stored collection
    is not itself taken for an estimator. *)
Theorem construct_again_same_adapter
        (models mv nv : pyval) (kwargs : gmap string pyval) (w : W) (σ : state) :
  construct models kwargs w = (Ok tt, σ) ->
  isestimator (normalize models) = false ->
  obj σ !! "models" = Some mv ->
  obj σ !! "names" = Some nv ->
  construct mv {["names" := nv]} w = (Ok tt, σ).
Proof.
  rewrite construct_eq.
  destruct (default_names (normalize models)) as [d|e] eqn:Hdef; [|discriminate].
  intros [= <-] Hest. simpl.
  rewrite lookup_insert_ne by discriminate. rewrite !lookup_insert_eq.
  intros [= <-] [= <-].
  rewrite construct_eq.
  assert (Hnorm : normalize (normalize models) = normalize models).
  { unfold normalize at 1. now rewrite Hest. }
  rewrite Hnorm, Hdef.
  rewrite (default_or_supplied {["names" := default_or kwargs d]} d
             (default_or kwargs d)) by apply lookup_singleton_eq.
  reflexivity.
Qed.

(** ** Further properties of the display surfaces *)

(** An error of the display-surface provider reaches the caller as it is;
    the adapter is left as it was. *)
Theorem generate_subplots_provider_error
        (σ : state) (mv : pyval) (ms : list pyval) (e : pyexc) (w' : W) :
  obj σ !! "models" = Some mv ->
  py_iter mv = Ok ms ->
  plt_subplots (Z.of_nat (length ms)) true true (world σ) = (Raise e, w') ->
  generate_subplots σ = (Raise e, set_world σ w').
Proof.
  intros Hmodels Hiter Hcall.
  unfold generate_subplots, bind, getattr, lift_result, lift_world, ret.
  rewrite Hmodels, (py_len_iter _ _ Hiter), Hcall. reflexivity.
Qed.

(** Nothing is kept between two calls of [generate_subplots]: the second
    call asks the provider again, in the world the first call left, and
    returns what the provider answers then. *)
Theorem generate_subplots_twice
        (σ : state) (mv r1 f1 a1 r2 f2 a2 : pyval) (ms : list pyval) (w1 w2 : W) :
  obj σ !! "models" = Some mv ->
  py_iter mv = Ok ms ->
  plt_subplots (Z.of_nat (length ms)) true true (world σ) = (Ok r1, w1) ->
  py_unpack2 r1 = Ok (f1, a1) ->
  plt_subplots (Z.of_nat (length ms)) true true w1 = (Ok r2, w2) ->
  py_unpack2 r2 = Ok (f2, a2) ->
  (let! first := generate_subplots in
   let! second := generate_subplots in
   ret (first, second)) σ
  = (Ok (a1, a2), set_world σ w2).
Proof.
  intros Hmodels Hiter Hcall1 Hpair1 Hcall2 Hpair2.
  unfold bind at 1.
  rewrite (generate_subplots_returns_provider_axes
             σ mv r1 f1 a1 ms w1 Hmodels Hiter Hcall1 Hpair1).
  unfold bind.
  rewrite (generate_subplots_returns_provider_axes
             (set_world σ w1) mv r2 f2 a2 ms w2 Hmodels Hiter Hcall2 Hpair2).
  reflexivity.
Qed.

(** ** Further properties of the predictions *)

(** On an instance without a [models] attribute (the mixin's constructor was
    never run), both operations raise [AttributeError] and reach no
    collaborator; [predict] itself still returns a generator, which raises
    when it is first advanced. *)
Theorem operations_without_models
        (σ : state) (X y : pyval) (n : nat) :
  obj σ !! "models" = None ->
  exists e,
    exc_class e = "AttributeError" /\
    generate_subplots σ = (Raise e, σ) /\
    iterate (S n) (predict X y) σ = ([], Failed e, GenClosed, σ).
Proof.
  intros Hnone. eexists. split; [|split].
  2: { unfold generate_subplots, bind, getattr. rewrite Hnone. reflexivity. }
  - reflexivity.
  - simpl. unfold bind, getattr. rewrite Hnone. reflexivity.
Qed.

Lemma iterate_suspended_bound (X y : pyval) (n : nat) :
  forall (rest : list pyval) (σ : state),
    (length (iterate n (GenSuspended rest X y) σ).1.1.1 <= min n (length rest))%nat.
Proof.
  induction n as [|n IH]; intros rest σ; simpl; [lia|].
  destruct rest as [|m rest]; simpl; [lia|]. unfold lift_world.
  destruct (cvp m X y 12 (world σ)) as [[v|e] w1]; simpl; [|lia].
  specialize (IH rest (set_world σ w1)).
  destruct (iterate n (GenSuspended rest X y) (set_world σ w1))
    as [[[vs en] g'] σ'].
  simpl in *. lia.
Qed.

(** However often the generator is advanced, it delivers at most one
    prediction per model, and at most one per turn. *)
Theorem predict_delivers_at_most_models
        (σ : state) (mv : pyval) (ms : list pyval) (X y : pyval) (n : nat) :
  obj σ !! "models" = Some mv ->
  py_iter mv = Ok ms ->
  (length (iterate n (predict X y) σ).1.1.1 <= min n (length ms))%nat.
Proof.
  intros Hmodels Hiter. destruct n as [|n]; [simpl; lia|].
  rewrite (iterate_created _ _ _ _ _ _ Hmodels Hiter).
  apply iterate_suspended_bound.
Qed.

(** A generator that has reported its end or has raised is closed for good:
    every later turn reports exhaustion and runs nothing. *)
Theorem generator_stays_closed
        (g g' : generator) (σ σ' : state) (o : outcome) :
  gen_next g σ = (o, g', σ') ->
  (forall v, o <> Yielded v) ->
  g' = GenClosed /\
  forall (n : nat) (σ'' : state),
    iterate (S n) g' σ'' = ([], Exhausted, GenClosed, σ'').
Proof.
  intros Hnext Hend.
  assert (Hclosed : g' = GenClosed).
  { assert (Hresume : forall rest X y,
               resume rest X y σ = (o, g', σ') -> g' = GenClosed).
    { intros rest X y. destruct rest as [|m rest]; simpl.
      - now intros [= _ <- _].
      - unfold lift_world.
        destruct (cvp m X y 12 (world σ)) as [[v|e] w1]; intros [= <- <- _];
          [now destruct (Hend v) | reflexivity]. }
    destruct g as [X y|rest X y|]; simpl in Hnext.
    - unfold bind, getattr, lift_result in Hnext.
      destruct (obj σ !! "models") as [mv|]; [|now injection Hnext as _ <- _].
      destruct (py_iter mv); [now apply (Hresume _ _ _ Hnext)|].
      now injection Hnext as _ <- _.
    - now apply (Hresume _ _ _ Hnext).
    - now injection Hnext as _ <- _. }
  split; [exact Hclosed|]. subst g'. reflexivity.
Qed.

Lemma gen_next_reads_models (g : generator) (σ1 σ2 : state) :
  obj σ1 !! "models" = obj σ2 !! "models" ->
  world σ1 = world σ2 ->
  (gen_next g σ1).1 = (gen_next g σ2).1 /\
  world (gen_next g σ1).2 = world (gen_next g σ2).2.
Proof.
  intros Hmodels Hworld.
  assert (Hresume : forall rest X y,
             (resume rest X y σ1).1 = (resume rest X y σ2).1 /\
             world (resume rest X y σ1).2 = world (resume rest X y σ2).2).
  { intros rest X y. destruct rest as [|m rest]; simpl; [auto|].
    unfold lift_world. rewrite Hworld.
    destruct (cvp m X y 12 (world σ2)) as [[v|e] w1]; auto. }
  destruct g as [X y|rest X y|]; simpl; [|apply Hresume|auto].
  unfold bind, getattr, lift_result. rewrite Hmodels.
  destruct (obj σ2 !! "models") as [mv|]; [|auto].
  destruct (py_iter mv); [apply Hresume|auto].
Qed.

Lemma iterate_reads_models (n : nat) :
  forall (g : generator) (σ1 σ2 : state),
    obj σ1 !! "models" = obj σ2 !! "models" ->
    world σ1 = world σ2 ->
    (iterate n g σ1).1 = (iterate n g σ2).1 /\
    world (iterate n g σ1).2 = world (iterate n g σ2).2.
Proof.
  induction n as [|n IH]; intros g σ1 σ2 Hmodels Hworld; simpl; [auto|].
  destruct (gen_next_reads_models g σ1 σ2 Hmodels Hworld) as [Hout Hw].
  pose proof (gen_next_frame g σ1) as Hf1.
  pose proof (gen_next_frame g σ2) as Hf2.
  destruct (gen_next g σ1) as [[o g1] τ1], (gen_next g σ2) as [[o' g1'] τ2].
  simpl in *. injection Hout as <- <-.
  destruct o as [v| |e]; auto.
  assert (Hmodels' : obj τ1 !! "models" = obj τ2 !! "models") by congruence.
  destruct (IH g1 τ1 τ2 Hmodels' Hw) as [Hrest Hw'].
  destruct (iterate n g1 τ1) as [[[vs en] g2] υ1],
           (iterate n g1 τ2) as [[[vs' en'] g2'] υ2].
  simpl in *. injection Hrest as <- <- <-. auto.
Qed.

(** The two operations read the adapter through [self.models] only: on two
    instances with the same models, in the same world, they give the same
    results and leave the same world, whatever the names or other attributes
    are. *)
Theorem operations_read_models_only
        (σ1 σ2 : state) (X y : pyval) (n : nat) :
  obj σ1 !! "models" = obj σ2 !! "models" ->
  world σ1 = world σ2 ->
  (generate_subplots σ1).1 = (generate_subplots σ2).1 /\
  world (generate_subplots σ1).2 = world (generate_subplots σ2).2 /\
  (iterate n (predict X y) σ1).1 = (iterate n (predict X y) σ2).1 /\
  world (iterate n (predict X y) σ1).2 = world (iterate n (predict X y) σ2).2.
Proof.
  intros Hmodels Hworld.
  destruct (iterate_reads_models n (predict X y) σ1 σ2 Hmodels Hworld)
    as [Hit Hw].
  assert (Hsub : (generate_subplots σ1).1 = (generate_subplots σ2).1 /\
                 world (generate_subplots σ1).2 = world (generate_subplots σ2).2).
  { unfold generate_subplots, bind, getattr, lift_result, lift_world, ret.
    rewrite Hmodels.
    destruct (obj σ2 !! "models") as [mv|]; [|auto].
    destruct (py_len mv) as [k|e]; [|auto].
    rewrite Hworld.
    destruct (plt_subplots k true true (world σ2)) as [[r|e] w']; [|auto].
    destruct (py_unpack2 r); auto. }
  destruct Hsub as [Hres Hw']. auto.
Qed.

Lemma iterate_created_prefix
      (σ : state) (mv : pyval) (ms : list pyval) (X y : pyval) (k : nat)
      (vs : list pyval) (err : option pyexc) (w' : W) :
  obj σ !! "models" = Some mv ->
  py_iter mv = Ok ms ->
  cross_validate_each (take k ms) X y (world σ) = (vs, err, w') ->
  (iterate k (predict X y) σ).1.1.1 = vs /\
  (iterate k (predict X y) σ).2 = set_world σ w'.
Proof.
  intros Hmodels Hiter Hcv. destruct k as [|k].
  - simpl in *. injection Hcv as <- <- <-. now rewrite set_world_same.
  - rewrite (iterate_created _ _ _ _ _ _ Hmodels Hiter).
    eapply iterate_suspended_prefix. exact Hcv.
Qed.

(** The generator never looks ahead: what [k] turns deliver, and the world
    they leave, depend on the first [k] models only.  Two adapters whose
    model collections start with the same [k] models deliver the same first
    [k] predictions. *)
Theorem predict_prefix_only
        (σ1 σ2 : state) (mv1 mv2 : pyval) (ms1 ms2 : list pyval)
        (X y : pyval) (k : nat) :
  obj σ1 !! "models" = Some mv1 ->
  py_iter mv1 = Ok ms1 ->
  obj σ2 !! "models" = Some mv2 ->
  py_iter mv2 = Ok ms2 ->
  world σ1 = world σ2 ->
  take k ms1 = take k ms2 ->
  (iterate k (predict X y) σ1).1.1.1 = (iterate k (predict X y) σ2).1.1.1 /\
  world (iterate k (predict X y) σ1).2 = world (iterate k (predict X y) σ2).2.
Proof.
  intros Hm1 Hi1 Hm2 Hi2 Hworld Htake.
  destruct (cross_validate_each (take k ms1) X y (world σ1))
    as [[vs err] w'] eqn:Hcv.
  destruct (iterate_created_prefix σ1 mv1 ms1 X y k vs err w' Hm1 Hi1 Hcv)
    as [Hvs1 Hσ1].
  rewrite Htake, Hworld in Hcv.
  destruct (iterate_created_prefix σ2 mv2 ms2 X y k vs err w' Hm2 Hi2 Hcv)
    as [Hvs2 Hσ2].
  rewrite Hvs1, Hvs2, Hσ1, Hσ2. auto.
Qed.

(** ** The constructor and the operations together *)

Lemma construct_ok_state (models : pyval) (kwargs : gmap string pyval)
      (w : W) (σ : state) :
  construct models kwargs w = (Ok tt, σ) ->
  obj σ !! "models" = Some (normalize models) /\ world σ = w.
Proof.
  rewrite construct_eq.
  destruct (default_names (normalize models)); [|discriminate].
  intros [= <-]. simpl.
  rewrite lookup_insert_ne by discriminate. rewrite lookup_insert_eq. auto.
Qed.

(** Consuming [predict(X, y)] on a freshly built adapter cross-validates the
    single estimator it was built from, or each item of the collection it
    was built from, in order, at 12 folds; the keyword arguments of the
    constructor have no part in it. *)
Theorem construct_then_predict
        (models : pyval) (kwargs : gmap string pyval) (w : W) (σ : state)
        (ms : list pyval) (X y : pyval)
        (vs : list pyval) (err : option pyexc) (w' : W) (n : nat) :
  construct models kwargs w = (Ok tt, σ) ->
  py_iter (normalize models) = Ok ms ->
  cross_validate_each ms X y w = (vs, err, w') ->
  (length ms < n)%nat ->
  iterate n (predict X y) σ = (vs, ending_of err, GenClosed, set_world σ w') /\
  (isestimator models = true -> ms = [models]) /\
  (isestimator models = false -> py_iter models = Ok ms).
Proof.
  intros Hcons Hiter Hcv Hn.
  destruct (construct_ok_state _ _ _ _ Hcons) as [Hmodels Hworld].
  split; [|split].
  - destruct n as [|n]; [lia|].
    rewrite (iterate_created _ _ _ _ _ _ Hmodels Hiter).
    apply iterate_suspended; [exact Hn | now rewrite Hworld].
  - intros Hest. unfold normalize in Hiter. rewrite Hest in Hiter.
    now injection Hiter as <-.
  - intros Hest. unfold normalize in Hiter. now rewrite Hest in Hiter.
Qed.

(** On a freshly built adapter, [generate_subplots] asks the provider for as
    many surfaces as the adapter has models (one for a single estimator),
    with both axes shared, in the world the constructor was run in: the
    constructor itself has touched no collaborator. *)
Theorem construct_then_generate_subplots
        (models : pyval) (kwargs : gmap string pyval) (w : W) (σ : state)
        (ms : list pyval) (r fig axes : pyval) (w' : W) :
  construct models kwargs w = (Ok tt, σ) ->
  py_iter (normalize models) = Ok ms ->
  plt_subplots (Z.of_nat (length ms)) true true w = (Ok r, w') ->
  py_unpack2 r = Ok (fig, axes) ->
  generate_subplots σ = (Ok axes, set_world σ w') /\
  (isestimator models = true -> length ms = 1%nat).
Proof.
  intros Hcons Hiter Hcall Hpair.
  destruct (construct_ok_state _ _ _ _ Hcons) as [Hmodels Hworld].
  split.
  - rewrite <- Hworld in Hcall.
    exact (generate_subplots_returns_provider_axes
             σ _ r fig axes ms w' Hmodels Hiter Hcall Hpair).
  - intros Hest. unfold normalize in Hiter. rewrite Hest in Hiter.
    now injection Hiter as <-.
Qed.

End MultiModelMixin.

(** ** The properties at work

    The theorems above, applied to concrete adapters built with the
    capability check and the name helper of the specification, the
    instrumented world [lab0], and the providers defined at the top. *)

Lemma construct_single_estimator_witness :
  isestimator_spec svc = true /\
  get_model_name_spec svc = Ok (PyStr "SVC") /\
  (∅ : gmap string pyval) !! "names" = None /\
  exists σ,
    construct isestimator_spec get_model_name_spec svc ∅ lab0 = (Ok tt, σ) /\
    obj σ !! "models" = Some (PyList [svc]) /\
    obj σ !! "names" = Some (PyList [PyStr "SVC"]) /\
    world σ = lab0.
Proof.
  split; [reflexivity|]. split; [reflexivity|]. split; [reflexivity|].
  apply (construct_single_estimator
           isestimator_spec get_model_name_spec svc (PyStr "SVC") ∅ lab0);
    reflexivity.
Defined.

Lemma construct_collection_witness :
  isestimator_spec (PyList [svc; ridge]) = false /\
  py_iter (PyList [svc; ridge]) = Ok [svc; ridge] /\
  Forall2 (fun m n => get_model_name_spec m = Ok n)
          [svc; ridge] [PyStr "SVC"; PyStr "Ridge"] /\
  exists σ,
    construct isestimator_spec get_model_name_spec (PyList [svc; ridge]) ∅ lab0
    = (Ok tt, σ) /\
    obj σ !! "models" = Some (PyList [svc; ridge]) /\
    obj σ !! "names" = Some (PyList [PyStr "SVC"; PyStr "Ridge"]) /\
    length [PyStr "SVC"; PyStr "Ridge"] = length [svc; ridge].
Proof.
  assert (Hnames : Forall2 (fun m n => get_model_name_spec m = Ok n)
                           [svc; ridge] [PyStr "SVC"; PyStr "Ridge"])
    by (repeat constructor).
  split; [reflexivity|]. split; [reflexivity|]. split; [exact Hnames|].
  apply (construct_collection
           isestimator_spec get_model_name_spec
           (PyList [svc; ridge]) [svc; ridge] [PyStr "SVC"; PyStr "Ridge"] ∅ lab0);
    [reflexivity | reflexivity | exact Hnames | reflexivity].
Defined.

(** Three models and two names: the names are stored as given. *)
Lemma construct_names_verbatim_witness :
  let models := PyList [svc; ridge; lasso] in
  let given := PyList [PyStr "A"; PyStr "B"] in
  let kwargs : gmap string pyval := {["names" := given]} in
  kwargs !! "names" = Some given /\
  py_iter (normalize isestimator_spec models) = Ok [svc; ridge; lasso] /\
  exists σ,
    construct isestimator_spec get_model_name_spec models kwargs lab0 = (Ok tt, σ) /\
    obj σ !! "models" = Some models /\
    obj σ !! "names" = Some given.
Proof.
  intros models given kwargs.
  assert (Hall : Forall (fun m => exists n, get_model_name_spec m = Ok n)
                        [svc; ridge; lasso])
    by (repeat constructor; eexists; reflexivity).
  split; [reflexivity|]. split; [reflexivity|].
  exact (proj1 (construct_names_verbatim
                  isestimator_spec get_model_name_spec
                  models given [svc; ridge; lasso] kwargs lab0
                  eq_refl eq_refl Hall)).
Defined.

(** An empty list of models is accepted and stored: the model collection of
    the adapter is then empty. *)
Lemma construct_empty_collection :
  exists σ,
    construct isestimator_spec get_model_name_spec (PyList []) ∅ lab0 = (Ok tt, σ) /\
    obj σ !! "models" = Some (PyList []) /\
    py_len (PyList []) = Ok 0.
Proof. eexists. repeat split. Qed.

Lemma construct_models_collection_witness :
  let models := PyList [svc; ridge] in
  let σ := (construct isestimator_spec get_model_name_spec models ∅ lab0).2 in
  construct isestimator_spec get_model_name_spec models ∅ lab0 = (Ok tt, σ) /\
  isestimator_spec models = false /\
  obj σ !! "models" = Some models /\
  py_iter models = Ok [svc; ridge] /\
  py_len models = Ok 2 /\
  [svc; ridge] <> [].
Proof.
  intros models σ.
  assert (Hscope :
            (isestimator_spec models = true /\ [svc; ridge] = [models]) \/
            (isestimator_spec models = false /\
             (models = PyList [svc; ridge] \/ models = PyTuple [svc; ridge])))
    by (right; split; [reflexivity | left; reflexivity]).
  destruct (construct_models_collection
              isestimator_spec get_model_name_spec
              models [svc; ridge] ∅ lab0 σ eq_refl Hscope)
    as (Hstored & Hiter & Hlen & _ & Hnonempty).
  split; [reflexivity|]. split; [reflexivity|].
  split; [exact Hstored|]. split; [exact Hiter|]. split; [exact Hlen|].
  apply Hnonempty. right. exists svc, [ridge]. left. reflexivity.
Defined.


(** C5. [generate_subplots] is to return a sequence of exactly N surface
    handles for an adapter of N models, a sequence of one handle for N = 1.
    With pyplot's [subplots] the adapter of a single model gets the one
    surface handle itself instead, which is not a sequence of handles. *)
Lemma generate_subplots_single_not_a_sequence :
  let σ := (construct isestimator_spec get_model_name_spec svc ∅ lab0).2 in
  obj σ !! "models" = Some (PyList [svc]) /\
  (generate_subplots pyplot_subplots σ).1 = Ok (PyObj 101 "AxesSubplot" []) /\
  ~ (exists (v : pyval) (hs : list pyval),
        (generate_subplots pyplot_subplots σ).1 = Ok v /\
        py_iter v = Ok hs /\ length hs = 1%nat).
Proof.
  intros σ. split; [reflexivity|]. split; [reflexivity|].
  intros (v & hs & Hv & Hiter & _).
  vm_compute in Hv. injection Hv as <-. discriminate Hiter.
Qed.

(** Three models: three surfaces are requested, with both axes shared, and
    the three handles of the provider's answer are returned. *)
Lemma generate_subplots_three_models :
  let σ := (construct isestimator_spec get_model_name_spec (PyList [svc; ridge; lasso]) ∅ lab0).2 in
  let axes := PyList [PyObj 101 "AxesSubplot" []; PyObj 102 "AxesSubplot" [];
                      PyObj 103 "AxesSubplot" []] in
  let w' := {| calls := [SubplotsCall 3 true true]; next_oid := 104 |} in
  obj σ !! "models" = Some (PyList [svc; ridge; lasso]) /\
  py_iter (PyList [svc; ridge; lasso]) = Ok [svc; ridge; lasso] /\
  pyplot_subplots 3 true true (world σ)
  = (Ok (PyTuple [PyObj 100 "Figure" []; axes]), w') /\
  generate_subplots pyplot_subplots σ = (Ok axes, set_world σ w').
Proof.
  intros σ axes w'.
  split; [reflexivity|]. split; [reflexivity|]. split; [reflexivity|].
  apply (generate_subplots_returns_provider_axes
           pyplot_subplots σ (PyList [svc; ridge; lasso])
           (PyTuple [PyObj 100 "Figure" []; axes]) (PyObj 100 "Figure" []) axes
           [svc; ridge; lasso] w');
    reflexivity.
Defined.

(** With pyplot's [subplots], an adapter of two or more models does get a
    sequence of as many handles as it has models. *)
Lemma generate_subplots_pyplot_many
      (σ : @state lab) (mv : pyval) (ms : list pyval) :
  obj σ !! "models" = Some mv ->
  py_iter mv = Ok ms ->
  (2 <= length ms)%nat ->
  exists hs,
    (generate_subplots pyplot_subplots σ).1 = Ok (PyList hs) /\
    length hs = length ms.
Proof.
  intros Hmodels Hiter Hmany.
  exists (fresh_axes (next_oid (world σ) + 1) (length ms)). split.
  - assert (Hcall : exists w',
               pyplot_subplots (Z.of_nat (length ms)) true true (world σ)
               = (Ok (PyTuple [PyObj (next_oid (world σ)) "Figure" [];
                               PyList (fresh_axes (next_oid (world σ) + 1)
                                                  (length ms))]), w')).
    { unfold pyplot_subplots.
      destruct (Z.of_nat (length ms) <=? 0) eqn:Hle; [lia|].
      rewrite Nat2Z.id.
      destruct ms as [|a [|b rest]]; simpl in Hmany; try lia.
      eexists. reflexivity. }
    destruct Hcall as [w' Hcall].
    rewrite (generate_subplots_returns_provider_axes
               pyplot_subplots σ mv _ _ _ ms w' Hmodels Hiter Hcall eq_refl).
    reflexivity.
  - unfold fresh_axes. now rewrite length_map, length_seq.
Qed.

(** Two models: two predictions, each the routine's answer at 12 folds. *)
Lemma predict_cross_validates_each_witness :
  let σ := (construct isestimator_spec get_model_name_spec (PyList [svc; ridge]) ∅ lab0).2 in
  let answer m := PyTuple [PyStr "predictions"; m; X0; y0; PyInt 12] in
  obj σ !! "models" = Some (PyList [svc; ridge]) /\
  py_iter (PyList [svc; ridge]) = Ok [svc; ridge] /\
  (iterate cvp_lab 3 (predict X0 y0) σ).1
  = ([answer svc; answer ridge], Exhausted, GenClosed) /\
  (iterate cvp_lab 1 (predict X0 y0) σ).1.1.1 = [answer svc] /\
  calls (world (iterate cvp_lab 1 (predict X0 y0) σ).2)
  = [CvpCall svc X0 y0 12].
Proof.
  intros σ answer.
  assert (Hmodels : obj σ !! "models" = Some (PyList [svc; ridge]))
    by reflexivity.
  assert (Hiter : py_iter (PyList [svc; ridge]) = Ok [svc; ridge])
    by reflexivity.
  destruct (predict_cross_validates_each
              cvp_lab σ (PyList [svc; ridge]) [svc; ridge] X0 y0 Hmodels Hiter)
    as (Hfull & _ & Hlazy).
  split; [exact Hmodels|]. split; [exact Hiter|].
  split; [|split].
  - rewrite (Hfull 3%nat [answer svc; answer ridge] None
               {| calls := [CvpCall svc X0 y0 12; CvpCall ridge X0 y0 12];
                  next_oid := 100 |});
      [reflexivity | simpl; lia | reflexivity].
  - apply (Hlazy 1%nat [answer svc] None
             {| calls := [CvpCall svc X0 y0 12]; next_oid := 100 |}).
    reflexivity.
  - rewrite (proj2 (Hlazy 1%nat [answer svc] None
                      {| calls := [CvpCall svc X0 y0 12]; next_oid := 100 |}
                      eq_refl)).
    reflexivity.
Defined.

(** The second of three models fails: the first prediction has been
    delivered when the error arrives. *)
Lemma predict_delivers_before_failure :
  let σ := (construct isestimator_spec get_model_name_spec (PyList [svc; scaler; lasso]) ∅ lab0).2 in
  let run := iterate cvp_lab 4 (predict X0 y0) σ in
  run.1.1.2
  = Failed (Exc "TypeError" "estimator should be an estimator implementing fit") /\
  run.1.1.1 = [PyTuple [PyStr "predictions"; svc; X0; y0; PyInt 12]] /\
  run.1.1.1 <> [].
Proof.
  intros σ run. split; [reflexivity|]. split; [reflexivity|]. discriminate.
Qed.

Lemma predict_error_propagates_witness :
  let σ := (construct isestimator_spec get_model_name_spec (PyList [svc; scaler; lasso]) ∅ lab0).2 in
  let e := Exc "TypeError" "estimator should be an estimator implementing fit" in
  let p := PyTuple [PyStr "predictions"; svc; X0; y0; PyInt 12] in
  let w1 := {| calls := [CvpCall svc X0 y0 12]; next_oid := 100 |} in
  let w2 := {| calls := [CvpCall svc X0 y0 12; CvpCall scaler X0 y0 12];
               next_oid := 100 |} in
  obj σ !! "models" = Some (PyList [svc; scaler; lasso]) /\
  cross_validate_each cvp_lab [svc] X0 y0 (world σ) = ([p], None, w1) /\
  cvp_lab scaler X0 y0 12 w1 = (Raise e, w2) /\
  exc_class e <> "StopIteration" /\
  iterate cvp_lab 2 (predict X0 y0) σ = ([p], Failed e, GenClosed, set_world σ w2) /\
  length [p] = length [svc] /\
  (forall σ' : state, gen_next cvp_lab GenClosed σ' = (Stopped, GenClosed, σ')).
Proof.
  intros σ e p w1 w2.
  split; [reflexivity|]. split; [reflexivity|]. split; [reflexivity|].
  split; [discriminate|].
  apply (predict_error_propagates
           cvp_lab σ (PyList [svc; scaler; lasso]) scaler [svc] [lasso]
           X0 y0 [p] w1 w2 e 2%nat);
    [reflexivity | reflexivity | reflexivity | reflexivity
    | discriminate | simpl; lia].
Defined.

Lemma cvp_lab_deterministic (m X y : pyval) (cv : Z) (w w' : lab) :
  (cvp_lab m X y cv w).1 = (cvp_lab m X y cv w').1.
Proof. unfold cvp_lab. destruct (isestimator_spec m); reflexivity. Qed.

(** Two runs over the same data give the same predictions, and the routine
    has then been called four times for two models. *)
Lemma predict_twice_identical_witness :
  let σ := (construct isestimator_spec get_model_name_spec (PyList [svc; ridge]) ∅ lab0).2 in
  let first := iterate cvp_lab 3 (predict X0 y0) σ in
  let second := iterate cvp_lab 3 (predict X0 y0) first.2 in
  (forall (m X y : pyval) (cv : Z) (w w' : lab),
      (cvp_lab m X y cv w).1 = (cvp_lab m X y cv w').1) /\
  second.1.1.1 = first.1.1.1 /\
  second.1.1.2 = first.1.1.2 /\
  world second.2 = (cross_validate_each cvp_lab [svc; ridge] X0 y0 (world first.2)).2 /\
  length (calls (world first.2)) = 2%nat /\
  length (calls (world second.2)) = 4%nat.
Proof.
  intros σ first second.
  destruct (predict_twice_identical cvp_lab cvp_lab_deterministic σ X0 y0 3)
    as (Hvalues & Hending & Hagain).
  split; [exact cvp_lab_deterministic|].
  split; [exact Hvalues|]. split; [exact Hending|].
  split; [|split; reflexivity].
  apply (Hagain (PyList [svc; ridge]) [svc; ridge]);
    [reflexivity | reflexivity | simpl; lia].
Defined.

(** ** The interface stubs *)

Lemma existsb_false_weaken {A : Type} (P Q : A -> bool) (l : list A) :
  (forall x, P x = false -> Q x = false) ->
  existsb P l = false -> existsb Q l = false.
Proof.
  intros HPQ. induction l as [|x l IH]; simpl; [reflexivity|].
  intros [Hx Hl]%orb_false_elim. now rewrite (HPQ x Hx), (IH Hl).
Qed.

Lemma bind_arguments_ok (fname : string) (sg : signature)
      (pos : list pyval) (kw : gmap string pyval) :
  bind_arguments fname sg pos kw = Ok tt <->
  (negb (sig_varargs sg) && (length (sig_params sg) <? length pos)%nat = false /\
   existsb (has_key kw) (take (length pos) (map fst (sig_params sg))) = false /\
   negb (sig_varkw sg)
   && existsb (fun k => negb (existsb (String.eqb k) (map fst (sig_params sg))))
              (map fst (map_to_list kw)) = false /\
   existsb (fun p => negb (snd p) && negb (has_key kw (fst p)))
           (drop (length pos) (sig_params sg)) = false).
Proof.
  unfold bind_arguments.
  destruct (negb (sig_varargs sg) && _) eqn:H1; simpl;
    [split; [discriminate | intros (? & _); discriminate]|].
  destruct (existsb (has_key kw) _) eqn:H2; simpl;
    [split; [discriminate | intros (_ & ? & _); discriminate]|].
  destruct (negb (sig_varkw sg) && _) eqn:H3; simpl;
    [split; [discriminate | intros (_ & _ & ? & _); discriminate]|].
  destruct (existsb _ (drop _ _)) eqn:H4; simpl;
    [split; [discriminate | intros (_ & _ & _ & ?); discriminate]|].
  split; auto.
Qed.

Lemma bind_arguments_type_error (fname : string) (sg : signature)
      (pos : list pyval) (kw : gmap string pyval) (e : pyexc) :
  bind_arguments fname sg pos kw = Raise e -> exc_class e = "TypeError".
Proof.
  unfold bind_arguments. destruct (_ || _); [|discriminate].
  now intros [= <-].
Qed.

(** No visualization class of the module can be rendered: [render] never
    returns a value, in any of the three classes and whatever it is called
    with.  The two overriding methods take every call the base method takes
    (and more), and then all three raise [NotImplementedError]. *)
Theorem render_not_implemented (pos : list pyval) (kw : gmap string pyval) :
  bind_arguments "render" BaseVisualization.render_sig pos kw = Ok tt ->
  (BaseVisualization.render pos kw
   = Raise (Exc "NotImplementedError"
                "All visualizations must specify their own render methodology") /\
   FeatureVisualization.render pos kw
   = Raise (Exc "NotImplementedError"
                "Please specify how to render the feature visualization") /\
   ModelVisualization.render pos kw
   = Raise (Exc "NotImplementedError"
                "Please specify how to render the model visualization")) /\
  (forall (pos' : list pyval) (kw' : gmap string pyval) (v : pyval),
      BaseVisualization.render pos' kw' <> Ok v /\
      FeatureVisualization.render pos' kw' <> Ok v /\
      ModelVisualization.render pos' kw' <> Ok v).
Proof.
  intros Hbase. split.
  - assert (Hfeature :
      bind_arguments "render" FeatureVisualization.render_sig pos kw = Ok tt).
    { apply bind_arguments_ok in Hbase as (H1 & H2 & H3 & H4).
      apply bind_arguments_ok. simpl in *. auto. }
    assert (Hmodel :
      bind_arguments "render" ModelVisualization.render_sig pos kw = Ok tt).
    { apply bind_arguments_ok in Hbase as (H1 & H2 & H3 & H4).
      apply bind_arguments_ok. simpl in *.
      destruct pos as [|a [|b rest]]; simpl in *; try discriminate.
      - repeat split; try reflexivity.
        + revert H3. apply existsb_false_weaken. intros k.
          destruct (String.eqb k "self"); simpl; [reflexivity | discriminate].
        + apply orb_false_elim in H4 as [-> _]. reflexivity.
      - repeat split; try assumption.
        revert H3. apply existsb_false_weaken. intros k.
        destruct (String.eqb k "self"); simpl; [reflexivity | discriminate]. }
    unfold BaseVisualization.render, FeatureVisualization.render,
      ModelVisualization.render.
    rewrite Hbase, Hfeature, Hmodel. auto.
  - intros pos' kw' v.
    unfold BaseVisualization.render, FeatureVisualization.render,
      ModelVisualization.render.
    repeat split;
      match goal with
      | |- result_bind ?b _ <> _ => destruct b; discriminate
      end.
Qed.

(** The two [fit] stubs take the data [X], with or without [y], and any
    further keyword arguments; they ignore all of it and return [None], not
    the instance. *)
Theorem fit_ignores_arguments (self X : pyval) (kw : gmap string pyval) :
  kw !! "self" = None ->
  kw !! "X" = None ->
  FeatureVisualization.fit [self; X] kw = Ok PyNone /\
  ModelVisualization.fit [self; X] kw = Ok PyNone /\
  (forall y : pyval,
      kw !! "y" = None ->
      FeatureVisualization.fit [self; X; y] kw = Ok PyNone /\
      ModelVisualization.fit [self; X; y] kw = Ok PyNone).
Proof.
  intros Hself HX.
  assert (Hbind : bind_arguments "fit" FeatureVisualization.fit_sig [self; X] kw
                  = Ok tt).
  { apply bind_arguments_ok. simpl. unfold has_key. rewrite Hself, HX. auto. }
  unfold FeatureVisualization.fit, ModelVisualization.fit.
  change ModelVisualization.fit_sig with FeatureVisualization.fit_sig.
  rewrite Hbind. repeat split; try reflexivity;
    (assert (Hbind3 : bind_arguments "fit" FeatureVisualization.fit_sig
                                     [self; X; y] kw = Ok tt);
     [apply bind_arguments_ok; simpl; unfold has_key;
      rewrite Hself, HX, H; auto
     | rewrite Hbind3; reflexivity]).
Qed.

(** [transform] and [predict] of the base classes take exactly one argument
    besides the receiver: called with one they return [None], called with
    none or with more they raise [TypeError]. *)
Theorem transform_predict_arity (self : pyval) (args : list pyval) :
  (length args = 1%nat /\
   FeatureVisualization.transform (self :: args) ∅ = Ok PyNone /\
   ModelVisualization.predict (self :: args) ∅ = Ok PyNone) \/
  (length args <> 1%nat /\
   exists e e',
     FeatureVisualization.transform (self :: args) ∅ = Raise e /\
     ModelVisualization.predict (self :: args) ∅ = Raise e' /\
     exc_class e = "TypeError" /\ exc_class e' = "TypeError").
Proof.
  unfold FeatureVisualization.transform, ModelVisualization.predict,
    bind_arguments.
  rewrite map_to_list_empty.
  destruct args as [|X [|b rest]]; simpl.
  - right. split; [discriminate|]. do 2 eexists. repeat split.
  - left. repeat split.
  - right. split; [discriminate|]. do 2 eexists. repeat split.
Qed.

(** ** The further properties at work *)

(** [MultiModelMixin(None, names=["A"])] *)
Lemma construct_not_iterable_witness :
  let kwargs : gmap string pyval := {["names" := PyList [PyStr "A"]]} in
  let e := Exc "TypeError" "NoneType object is not iterable" in
  isestimator_spec PyNone = false /\
  py_iter PyNone = Raise e /\
  construct isestimator_spec get_model_name_spec PyNone kwargs lab0
  = (Raise e, {| obj := <["models" := PyNone]> ∅; world := lab0 |}) /\
  exc_class e = "TypeError".
Proof.
  intros kwargs e. split; [reflexivity|]. split; [reflexivity|].
  apply (construct_not_iterable
           isestimator_spec get_model_name_spec PyNone e kwargs lab0);
    reflexivity.
Defined.

Lemma construct_ignores_other_keywords_witness :
  let kwargs : gmap string pyval :=
    {["color" := PyStr "red"; "names" := PyList [PyStr "A"; PyStr "B"]]} in
  let kwargs' : gmap string pyval := {["names" := PyList [PyStr "A"; PyStr "B"]]} in
  kwargs !! "names" = kwargs' !! "names" /\
  construct isestimator_spec get_model_name_spec (PyList [svc; ridge]) kwargs lab0
  = construct isestimator_spec get_model_name_spec (PyList [svc; ridge]) kwargs' lab0.
Proof.
  intros kwargs kwargs'. split; [reflexivity|].
  apply (construct_ignores_other_keywords
           isestimator_spec get_model_name_spec
           (PyList [svc; ridge]) kwargs kwargs' lab0).
  reflexivity.
Defined.

(** An adapter built from one estimator, and one built from its models and
    names. *)
Lemma construct_again_same_adapter_witness :
  let first := construct isestimator_spec get_model_name_spec svc ∅ lab0 in
  first.1 = Ok tt /\
  isestimator_spec (normalize isestimator_spec svc) = false /\
  obj first.2 !! "models" = Some (PyList [svc]) /\
  obj first.2 !! "names" = Some (PyList [PyStr "SVC"]) /\
  construct isestimator_spec get_model_name_spec
            (PyList [svc]) {["names" := PyList [PyStr "SVC"]]} lab0
  = (Ok tt, first.2).
Proof.
  intros first.
  split; [reflexivity|]. split; [reflexivity|].
  split; [reflexivity|]. split; [reflexivity|].
  apply (construct_again_same_adapter
           isestimator_spec get_model_name_spec
           svc (PyList [svc]) (PyList [PyStr "SVC"]) ∅ lab0 first.2);
    reflexivity.
Defined.

(** An adapter of no models: pyplot refuses to lay out zero rows. *)
Lemma generate_subplots_provider_error_witness :
  let σ := (construct isestimator_spec get_model_name_spec (PyList []) ∅ lab0).2 in
  let e := Exc "ValueError" "Number of rows must be a positive integer" in
  let w' := {| calls := [SubplotsCall 0 true true]; next_oid := 100 |} in
  obj σ !! "models" = Some (PyList []) /\
  pyplot_subplots 0 true true (world σ) = (Raise e, w') /\
  generate_subplots pyplot_subplots σ = (Raise e, set_world σ w').
Proof.
  intros σ e w'. split; [reflexivity|]. split; [reflexivity|].
  apply (generate_subplots_provider_error
           pyplot_subplots σ (PyList []) [] e w');
    reflexivity.
Defined.

(** Two calls on an adapter of two models: two figures, four fresh axes. *)
Lemma generate_subplots_twice_witness :
  let σ := (construct isestimator_spec get_model_name_spec
                      (PyList [svc; ridge]) ∅ lab0).2 in
  let a1 := PyList [PyObj 101 "AxesSubplot" []; PyObj 102 "AxesSubplot" []] in
  let a2 := PyList [PyObj 104 "AxesSubplot" []; PyObj 105 "AxesSubplot" []] in
  let w1 := {| calls := [SubplotsCall 2 true true]; next_oid := 103 |} in
  let w2 := {| calls := [SubplotsCall 2 true true; SubplotsCall 2 true true];
               next_oid := 106 |} in
  obj σ !! "models" = Some (PyList [svc; ridge]) /\
  pyplot_subplots 2 true true (world σ)
  = (Ok (PyTuple [PyObj 100 "Figure" []; a1]), w1) /\
  pyplot_subplots 2 true true w1
  = (Ok (PyTuple [PyObj 103 "Figure" []; a2]), w2) /\
  bind (generate_subplots pyplot_subplots) (fun first =>
  bind (generate_subplots pyplot_subplots) (fun second =>
  ret (first, second))) σ
  = (Ok (a1, a2), set_world σ w2).
Proof.
  intros σ a1 a2 w1 w2.
  split; [reflexivity|]. split; [reflexivity|]. split; [reflexivity|].
  apply (generate_subplots_twice
           pyplot_subplots σ (PyList [svc; ridge])
           (PyTuple [PyObj 100 "Figure" []; a1]) (PyObj 100 "Figure" []) a1
           (PyTuple [PyObj 103 "Figure" []; a2]) (PyObj 103 "Figure" []) a2
           [svc; ridge] w1 w2);
    reflexivity.
Defined.

(** A bare instance, on which the mixin's constructor never ran. *)
Lemma operations_without_models_witness :
  let σ := {| obj := ∅; world := lab0 |} in
  obj σ !! "models" = None /\
  exists e,
    exc_class e = "AttributeError" /\
    generate_subplots pyplot_subplots σ = (Raise e, σ) /\
    iterate cvp_lab 3 (predict X0 y0) σ = ([], Failed e, GenClosed, σ).
Proof.
  intros σ. split; [reflexivity|].
  apply (operations_without_models cvp_lab pyplot_subplots σ X0 y0 2).
  reflexivity.
Defined.

Lemma predict_delivers_at_most_models_witness :
  let σ := (construct isestimator_spec get_model_name_spec
                      (PyList [svc; ridge]) ∅ lab0).2 in
  obj σ !! "models" = Some (PyList [svc; ridge]) /\
  py_iter (PyList [svc; ridge]) = Ok [svc; ridge] /\
  (length (iterate cvp_lab 7 (predict X0 y0) σ).1.1.1 <= min 7 (length [svc; ridge]))%nat.
Proof.
  intros σ. split; [reflexivity|]. split; [reflexivity|].
  apply (predict_delivers_at_most_models
           cvp_lab σ (PyList [svc; ridge]) [svc; ridge] X0 y0 7);
    reflexivity.
Defined.

(** The turn after the last model ends the generator. *)
Lemma generator_stays_closed_witness :
  let σ := {| obj := ∅; world := lab0 |} in
  gen_next cvp_lab (GenSuspended [] X0 y0) σ = (Stopped, GenClosed, σ) /\
  (forall v, Stopped <> Yielded v) /\
  GenClosed = GenClosed /\
  forall (n : nat) (σ'' : @state lab),
    iterate cvp_lab (S n) GenClosed σ'' = ([], Exhausted, GenClosed, σ'').
Proof.
  intros σ.
  assert (Hend : forall v, Stopped <> Yielded v) by discriminate.
  split; [reflexivity|]. split; [exact Hend|].
  apply (generator_stays_closed
           cvp_lab (GenSuspended [] X0 y0) GenClosed σ σ Stopped eq_refl Hend).
Defined.

(** The same two models under different names. *)
Lemma operations_read_models_only_witness :
  let σ1 := (construct isestimator_spec get_model_name_spec
                       (PyList [svc; ridge]) ∅ lab0).2 in
  let σ2 := (construct isestimator_spec get_model_name_spec (PyList [svc; ridge])
                       {["names" := PyList [PyStr "A"; PyStr "B"]]} lab0).2 in
  obj σ1 !! "names" <> obj σ2 !! "names" /\
  obj σ1 !! "models" = obj σ2 !! "models" /\
  world σ1 = world σ2 /\
  (generate_subplots pyplot_subplots σ1).1 = (generate_subplots pyplot_subplots σ2).1 /\
  world (generate_subplots pyplot_subplots σ1).2
  = world (generate_subplots pyplot_subplots σ2).2 /\
  (iterate cvp_lab 3 (predict X0 y0) σ1).1 = (iterate cvp_lab 3 (predict X0 y0) σ2).1 /\
  world (iterate cvp_lab 3 (predict X0 y0) σ1).2
  = world (iterate cvp_lab 3 (predict X0 y0) σ2).2.
Proof.
  intros σ1 σ2. split; [discriminate|].
  split; [reflexivity|]. split; [reflexivity|].
  apply (operations_read_models_only
           cvp_lab pyplot_subplots σ1 σ2 X0 y0 3);
    reflexivity.
Defined.

(** Two adapters that share their first model only. *)
Lemma predict_prefix_only_witness :
  let σ1 := (construct isestimator_spec get_model_name_spec
                       (PyList [svc; ridge]) ∅ lab0).2 in
  let σ2 := (construct isestimator_spec get_model_name_spec
                       (PyList [svc; scaler; lasso]) ∅ lab0).2 in
  obj σ1 !! "models" = Some (PyList [svc; ridge]) /\
  obj σ2 !! "models" = Some (PyList [svc; scaler; lasso]) /\
  world σ1 = world σ2 /\
  take 1 [svc; ridge] = take 1 [svc; scaler; lasso] /\
  (iterate cvp_lab 1 (predict X0 y0) σ1).1.1.1
  = (iterate cvp_lab 1 (predict X0 y0) σ2).1.1.1 /\
  world (iterate cvp_lab 1 (predict X0 y0) σ1).2
  = world (iterate cvp_lab 1 (predict X0 y0) σ2).2.
Proof.
  intros σ1 σ2.
  split; [reflexivity|]. split; [reflexivity|].
  split; [reflexivity|]. split; [reflexivity|].
  apply (predict_prefix_only
           cvp_lab σ1 σ2 (PyList [svc; ridge]) (PyList [svc; scaler; lasso])
           [svc; ridge] [svc; scaler; lasso] X0 y0 1);
    reflexivity.
Defined.

(** One estimator, given a name: one prediction. *)
Lemma construct_then_predict_witness :
  let kwargs : gmap string pyval := {["names" := PyList [PyStr "support vectors"]]} in
  let σ := (construct isestimator_spec get_model_name_spec svc kwargs lab0).2 in
  let p := PyTuple [PyStr "predictions"; svc; X0; y0; PyInt 12] in
  let w' := {| calls := [CvpCall svc X0 y0 12]; next_oid := 100 |} in
  construct isestimator_spec get_model_name_spec svc kwargs lab0 = (Ok tt, σ) /\
  py_iter (normalize isestimator_spec svc) = Ok [svc] /\
  cross_validate_each cvp_lab [svc] X0 y0 lab0 = ([p], None, w') /\
  iterate cvp_lab 2 (predict X0 y0) σ = ([p], Exhausted, GenClosed, set_world σ w').
Proof.
  intros kwargs σ p w'.
  split; [reflexivity|]. split; [reflexivity|]. split; [reflexivity|].
  apply (construct_then_predict
           isestimator_spec get_model_name_spec cvp_lab
           svc kwargs lab0 σ [svc] X0 y0 [p] None w' 2);
    [reflexivity | reflexivity | reflexivity | simpl; lia].
Defined.

(** One estimator: one surface is requested. *)
Lemma construct_then_generate_subplots_witness :
  let σ := (construct isestimator_spec get_model_name_spec svc ∅ lab0).2 in
  let r := PyTuple [PyObj 100 "Figure" [];
                    PyList [PyObj 101 "AxesSubplot" []]] in
  let w' := {| calls := [SubplotsCall 1 true true]; next_oid := 102 |} in
  construct isestimator_spec get_model_name_spec svc ∅ lab0 = (Ok tt, σ) /\
  py_iter (normalize isestimator_spec svc) = Ok [svc] /\
  unsqueezed_subplots 1 true true lab0 = (Ok r, w') /\
  generate_subplots unsqueezed_subplots σ
  = (Ok (PyList [PyObj 101 "AxesSubplot" []]), set_world σ w').
Proof.
  intros σ r w'.
  split; [reflexivity|]. split; [reflexivity|]. split; [reflexivity|].
  apply (construct_then_generate_subplots
           isestimator_spec get_model_name_spec unsqueezed_subplots
           svc ∅ lab0 σ [svc] r (PyObj 100 "Figure" [])
           (PyList [PyObj 101 "AxesSubplot" []]) w');
    reflexivity.
Defined.

(** [viz.render()] *)
Lemma render_not_implemented_witness :
  bind_arguments "render" BaseVisualization.render_sig [viz] ∅ = Ok tt /\
  BaseVisualization.render [viz] ∅
  = Raise (Exc "NotImplementedError"
               "All visualizations must specify their own render methodology") /\
  FeatureVisualization.render [viz] ∅
  = Raise (Exc "NotImplementedError"
               "Please specify how to render the feature visualization") /\
  ModelVisualization.render [viz] ∅
  = Raise (Exc "NotImplementedError"
               "Please specify how to render the model visualization").
Proof.
  split; [reflexivity|].
  apply (render_not_implemented [viz] ∅). reflexivity.
Defined.

(** [viz.fit(X, y, sample_weight=None)] *)
Lemma fit_ignores_arguments_witness :
  let kw : gmap string pyval := {["sample_weight" := PyNone]} in
  kw !! "self" = None /\
  kw !! "X" = None /\
  kw !! "y" = None /\
  FeatureVisualization.fit [viz; X0] kw = Ok PyNone /\
  ModelVisualization.fit [viz; X0] kw = Ok PyNone /\
  FeatureVisualization.fit [viz; X0; y0] kw = Ok PyNone /\
  ModelVisualization.fit [viz; X0; y0] kw = Ok PyNone.
Proof.
  intros kw.
  destruct (fit_ignores_arguments viz X0 kw eq_refl eq_refl)
    as (Hf & Hm & Hy).
  destruct (Hy y0 eq_refl) as [Hfy Hmy].
  repeat split; assumption.
Defined.
